(** * Soft delete for Django models: a shallow embedding of
      [abstract_soft_delete.py]

    The module layers three small classes over Django's ORM:
    [SoftDeleteQuerySet], the managers [SoftDeleteManager] and
    [UserSoftDeleteManager], and the abstract model [SoftDeleteModel].

    The ORM itself (query evaluation, [update], [delete], [save]) is not part
    of the module.  It is modelled here on one table of one database: a
    finite map from primary keys to rows, a log of the statements issued, a
    clock read by [timezone.now()], and a schedule of injected failures that
    lets any database access raise.  Query sets are the ones built from a
    manager with [filter], [exclude] and [all]; slicing, ordering, joins,
    cascades, signals and columns with a pre-save hook are outside the
    model. *)

From stdpp Require Import gmap strings list fin_maps.

Open Scope Z_scope.

(** ** Python values and exceptions *)

(** The values a caller passes as [delete_permanently]. *)
Inductive PyVal :=
| PyNone
| PyBool (b : bool)
| PyInt (n : Z)
| PyStr (s : string).

Global Instance PyVal_eq_dec : EqDecision PyVal.
Proof. solve_decision. Defined.

(** [bool(v)]. *)
Definition py_truthy (v : PyVal) : bool :=
  match v with
  | PyNone => false
  | PyBool b => b
  | PyInt n => negb (n =? 0)
  | PyStr s => negb (bool_decide (s = EmptyString))
  end.

(** [bool] is a subclass of [int]: [True] counts as 1 and [False] as 0 in
    comparisons. *)
Definition py_num (v : PyVal) : option Z :=
  match v with
  | PyBool true => Some 1
  | PyBool false => Some 0
  | PyInt n => Some n
  | _ => None
  end.

(** [a == b]. *)
Definition py_eq (a b : PyVal) : bool :=
  match a, b with
  | PyNone, PyNone => true
  | PyStr s, PyStr t => bool_decide (s = t)
  | _, _ =>
      match py_num a, py_num b with
      | Some x, Some y => x =? y
      | _, _ => false
      end
  end.

(** [a is True]. *)
Definition py_is_True (a : PyVal) : bool :=
  match a with
  | PyBool true => true
  | _ => false
  end.

(** Exceptions.  The last two derive from [BaseException] only. *)
Inductive PyExc :=
| DatabaseError (msg : string)
| TypeError (msg : string)
| ValueError (msg : string)
| AttributeError (name : string)
| KeyboardInterrupt
| SystemExit.

(** [isinstance(e, Exception)], the test behind [except Exception]. *)
Definition isinstance_Exception (e : PyExc) : bool :=
  match e with
  | KeyboardInterrupt | SystemExit => false
  | _ => true
  end.

(** ** The table *)

(** A stored row; the primary key is the key of the table map.
    [deleted_at] is the nullable timestamp column of line 59. *)
Record Row := mkRow {
  row_deleted_at : option Z;
  row_fields : gmap string PyVal
}.

Definition row_set_deleted_at (v : option Z) (r : Row) : Row :=
  {| row_deleted_at := v; row_fields := row_fields r |}.

(** Lookups of a [WHERE] clause. *)
Inductive Q :=
| deleted_at__isnull (b : bool)
| pk__in (pks : list Z)
| field__exact (name : string) (v : PyVal)
| Q_and (a b : Q)
| Q_or (a b : Q)
| Q_not (a : Q).

Fixpoint Q_holds (q : Q) (k : Z) (r : Row) : bool :=
  match q with
  | deleted_at__isnull b =>
      bool_decide (bool_decide (row_deleted_at r = None) = b)
  | pk__in pks => bool_decide (k ∈ pks)
  | field__exact name v => bool_decide (row_fields r !! name = Some v)
  | Q_and a b => Q_holds a k r && Q_holds b k r
  | Q_or a b => Q_holds a k r || Q_holds b k r
  | Q_not a => negb (Q_holds a k r)
  end.

(** Statements sent to the database, in the manner of
    [connection.queries]. *)
Inductive Stmt :=
| SELECT_pk (where_ : list Q)
| SELECT_count (where_ : list Q)
| UPDATE_deleted_at (where_ : list Q) (v : option Z)
| DELETE_where (where_ : list Q)
| DELETE_pk (k : Z)
| UPDATE_row (k : Z) (r : Row)
| INSERT_row (k : Z) (r : Row).

Record World := mkWorld {
  db : gmap Z Row;
  clock : Z;
  faults : list (option PyExc);
  queries : list Stmt
}.

Definition set_db (d : gmap Z Row) (w : World) : World :=
  {| db := d; clock := clock w; faults := faults w; queries := queries w |}.

(** The failure the [i]-th coming database access meets, if any. *)
Definition fault_at (w : World) (i : nat) : option PyExc :=
  mjoin (faults w !! i).

(** ** Outcomes and the state-and-exception monad *)

Inductive Outcome (A : Type) :=
| Return (a : A)
| Raise (e : PyExc).
Arguments Return {A} a.
Arguments Raise {A} e.

Definition M (S A : Type) : Type := S → Outcome A * S.

Global Instance M_ret {S} : MRet (M S) := λ A a s, (Return a, s).

Global Instance M_bind {S} : MBind (M S) := λ A B k m s,
  match m s with
  | (Return a, s') => k a s'
  | (Raise e, s') => (Raise e, s')
  end.

Definition raise {S A} (e : PyExc) : M S A := λ s, (Raise e, s).

(** [try: body except Exception as e: handler e].  Exceptions outside
    [Exception] pass through untouched. *)
Definition try_except_Exception {S A}
    (body : M S A) (handler : PyExc → M S A) : M S A :=
  λ s, match body s with
       | (Return a, s') => (Return a, s')
       | (Raise e, s') =>
           if isinstance_Exception e then handler e s' else (Raise e, s')
       end.

(** Run a computation on the world inside a method with a [self]. *)
Definition on_world {Self A} (m : M World A) : M (Self * World) A :=
  λ '(self, w), match m w with (o, w') => (o, (self, w')) end.

Definition get_self {Self} : M (Self * World) Self :=
  λ '(self, w), (Return self, (self, w)).

Definition put_self {Self} (self' : Self) : M (Self * World) unit :=
  λ '(_, w), (Return tt, (self', w)).

Definition get_world : M World World := λ w, (Return w, w).

Definition modify_db (f : gmap Z Row → gmap Z Row) : M World unit :=
  λ w, (Return tt, set_db (f (db w)) w).

(** The world once a statement has been sent: the statement is logged and
    the next entry of the failure schedule is consumed. *)
Definition logged (st : Stmt) (w : World) : World :=
  {| db := db w; clock := clock w;
     faults := tail (faults w);
     queries := queries w ++ [st] |}.

(** One database access; it raises if the schedule holds an exception for
    it.  A failed statement changes no row. *)
Definition execute (st : Stmt) : M World unit :=
  λ w,
    match fault_at w 0 with
    | Some e => (Raise e, logged st w)
    | None => (Return tt, logged st w)
    end.

(** [timezone.now()]: never null. *)
Definition timezone_now : M World Z := λ w, (Return (clock w), w).

(** ** Django's query sets, managers and model instances *)

Inductive QuerySetClass :=
| cls_QuerySet
| cls_SoftDeleteQuerySet.

(** A query-set object: its class, the conjunction of lookups it carries,
    and the ad-hoc attribute [deleted_item_pks] ([None] while the attribute
    does not exist, so that [hasattr] is [is_Some]). *)
Record QuerySet := mkQuerySet {
  qs_class : QuerySetClass;
  qs_where : list Q;
  deleted_item_pks : option (list Z)
}.

Definition set_deleted_item_pks (pks : list Z) (qs : QuerySet) : QuerySet :=
  {| qs_class := qs_class qs; qs_where := qs_where qs;
     deleted_item_pks := Some pks |}.

(** An in-memory model instance. *)
Record Instance := mkInstance {
  pk : option Z;
  deleted_at : option Z;
  fields : gmap string PyVal
}.

Definition set_deleted_at (v : option Z) (obj : Instance) : Instance :=
  {| pk := pk obj; deleted_at := v; fields := fields obj |}.

Definition set_pk (k : option Z) (obj : Instance) : Instance :=
  {| pk := k; deleted_at := deleted_at obj; fields := fields obj |}.

Definition row_of (obj : Instance) : Row :=
  {| row_deleted_at := deleted_at obj; row_fields := fields obj |}.

Module models.

(** [cls(model, using=db)]: a query set with no lookup yet. *)
Definition QuerySet_new (c : QuerySetClass) : QuerySet :=
  {| qs_class := c; qs_where := []; deleted_item_pks := None |}.

(** [filter], [exclude] and [all] return a clone of the same class; a
    clone carries the query, not the attributes set on the object
    afterwards. *)
Definition QuerySet_filter (q : Q) (qs : QuerySet) : QuerySet :=
  {| qs_class := qs_class qs; qs_where := qs_where qs ++ [q];
     deleted_item_pks := None |}.

Definition QuerySet_exclude (q : Q) (qs : QuerySet) : QuerySet :=
  QuerySet_filter (Q_not q) qs.

Definition QuerySet_all (qs : QuerySet) : QuerySet :=
  {| qs_class := qs_class qs; qs_where := qs_where qs;
     deleted_item_pks := None |}.

Definition where_holds (wh : list Q) (k : Z) (r : Row) : bool :=
  forallb (λ q, Q_holds q k r) wh.

(** The rows a query set matches in a table. *)
Definition rows (qs : QuerySet) (d : gmap Z Row) : gmap Z Row :=
  filter (λ kr, where_holds (qs_where qs) kr.1 kr.2 = true) d.

(** [list(qs.only("pk").values_list("pk", flat=True))]. *)
Definition QuerySet_values_list_pk (qs : QuerySet) : M World (list Z) :=
  execute (SELECT_pk (qs_where qs));;
  w ← get_world;
  mret ((map_to_list (rows qs (db w))).*1).

(** [qs.count()]. *)
Definition QuerySet_count (qs : QuerySet) : M World nat :=
  execute (SELECT_count (qs_where qs));;
  w ← get_world;
  mret (size (rows qs (db w))).

Definition update_rows (wh : list Q) (v : option Z) (d : gmap Z Row)
    : gmap Z Row :=
  map_imap (λ k r, Some (if where_holds wh k r
                         then row_set_deleted_at v r else r)) d.

(** [qs.update(deleted_at=v)]: one statement; returns the number of rows
    matched. *)
Definition QuerySet_update (qs : QuerySet) (v : option Z) : M World nat :=
  execute (UPDATE_deleted_at (qs_where qs) v);;
  w ← get_world;
  modify_db (update_rows (qs_where qs) v);;
  mret (size (rows qs (db w))).

Definition delete_rows (wh : list Q) (d : gmap Z Row) : gmap Z Row :=
  filter (λ kr, where_holds wh kr.1 kr.2 = false) d.

(** [QuerySet.delete()]: removes the matched rows; returns how many. *)
Definition QuerySet_delete (qs : QuerySet) : M World nat :=
  execute (DELETE_where (qs_where qs));;
  w ← get_world;
  modify_db (delete_rows (qs_where qs));;
  mret (size (rows qs (db w))).

(** [models.Manager.get_queryset()]. *)
Definition Manager_get_queryset : QuerySet := QuerySet_new cls_QuerySet.

(** The key an [INSERT] without a key receives. *)
Definition fresh_pk (d : gmap Z Row) : Z :=
  1 + map_fold (λ k _ acc, Z.max k acc) 0 d.

(** [Model.save()] for a model class whose columns are plain: an instance
    with a key is written over its row, or inserted under that key when no
    such row exists; an instance without a key is inserted and receives its
    key.  Columns with a [pre_save] hook ([auto_now], [auto_now_add]),
    signal receivers and the [_state] of the instance are not modelled. *)
Definition Model_save : M (Instance * World) unit :=
  self ← get_self;
  match pk self with
  | Some k =>
      on_world (execute (UPDATE_row k (row_of self)));;
      w ← on_world get_world;
      if decide (is_Some (db w !! k))
      then on_world (modify_db (<[k := row_of self]>))
      else on_world (execute (INSERT_row k (row_of self)));;
           on_world (modify_db (<[k := row_of self]>))
  | None =>
      w ← on_world get_world;
      let k := fresh_pk (db w) in
      on_world (execute (INSERT_row k (row_of self)));;
      on_world (modify_db (<[k := row_of self]>));;
      put_self (set_pk (Some k) self)
  end.

(** [Model.delete()]: refuses an instance without a key; otherwise
    removes the row of that key, clears the key of the instance and
    returns the number of rows removed. *)
Definition Model_delete : M (Instance * World) nat :=
  self ← get_self;
  match pk self with
  | None =>
      raise (ValueError "object cannot be deleted because its pk is None")
  | Some k =>
      on_world (execute (DELETE_pk k));;
      w ← on_world get_world;
      on_world (modify_db (delete k));;
      put_self (set_pk None self);;
      mret (if decide (is_Some (db w !! k)) then 1%nat else 0%nat)
  end.

End models.

(** ** The module [abstract_soft_delete.py]

    The managers come first here because [SoftDeleteQuerySet.restore] calls
    back into the manager it is given.  Calls pass no extra positional or
    keyword arguments on to [super().delete]. *)

Module SoftDeleteManager.

(** Lines 28-32. *)
Definition get_queryset : QuerySet :=
  let qs := models.QuerySet_filter (deleted_at__isnull true)
              (models.QuerySet_new cls_SoftDeleteQuerySet) in
  qs.

End SoftDeleteManager.

Module UserSoftDeleteManager.

(** Lines 45-49. *)
Definition get_queryset : QuerySet :=
  let qs := models.QuerySet_filter (deleted_at__isnull true)
              (models.QuerySet_new cls_SoftDeleteQuerySet) in
  qs.

End UserSoftDeleteManager.

(** The managers a model of this module can carry. *)
Inductive Manager :=
| mgr_Manager
| mgr_SoftDeleteManager
| mgr_UserSoftDeleteManager.

Definition manager_get_queryset (m : Manager) : QuerySet :=
  match m with
  | mgr_Manager => models.Manager_get_queryset
  | mgr_SoftDeleteManager => SoftDeleteManager.get_queryset
  | mgr_UserSoftDeleteManager => UserSoftDeleteManager.get_queryset
  end.

(** [manager.filter(q)], [manager.all()] and [manager.count()] go through
    [get_queryset()]. *)
Definition manager_filter (q : Q) (m : Manager) : QuerySet :=
  models.QuerySet_filter q (manager_get_queryset m).

Definition manager_all (m : Manager) : QuerySet := manager_get_queryset m.

Definition manager_count (m : Manager) : M World nat :=
  models.QuerySet_count (manager_get_queryset m).

Module SoftDeleteQuerySet.

(** Lines 8-14. *)
Definition soft_delete : M (QuerySet * World) unit :=
  try_except_Exception
    (self ← get_self;
     pks ← on_world (models.QuerySet_values_list_pk self);
     put_self (set_deleted_item_pks pks self);;
     self ← get_self;
     now ← on_world timezone_now;
     on_world (models.QuerySet_update self (Some now));;
     mret tt)
    (λ e,
     self ← get_self;
     put_self (set_deleted_item_pks [] self);;
     raise e).

(** Lines 16-19. *)
Definition restore (use_manager : Manager) : M (QuerySet * World) unit :=
  self ← get_self;
  match deleted_item_pks self with
  | Some ((_ :: _) as pks) =>
      on_world (models.QuerySet_update
                  (manager_filter (pk__in pks) use_manager) None);;
      self ← get_self;
      put_self (set_deleted_item_pks [] self)
  | _ => mret tt
  end.

(** Lines 21-24.  The result is [Some n] for the count the framework's
    delete returns and [None] for Python's [None]. *)
Definition delete (delete_permanently : PyVal)
    : M (QuerySet * World) (option nat) :=
  if py_eq delete_permanently (PyBool true)
  then self ← get_self;
       n ← on_world (models.QuerySet_delete self);
       mret (Some n)
  else soft_delete;;
       mret None.

End SoftDeleteQuerySet.

Module SoftDeleteModel.

(** Lines 60-61. *)
Definition objects : Manager := mgr_SoftDeleteManager.
Definition all_objects : Manager := mgr_Manager.

(** Lines 63-65. *)
Definition soft_delete : M (Instance * World) unit :=
  self ← get_self;
  now ← on_world timezone_now;
  put_self (set_deleted_at (Some now) self);;
  models.Model_save.

(** Lines 67-82. *)
Definition delete (delete_permanently : PyVal)
    : M (Instance * World) (option nat) :=
  if py_eq delete_permanently (PyBool true)
  then n ← models.Model_delete;
       mret (Some n)
  else soft_delete;;
       mret None.

(** Lines 84-86. *)
Definition restore : M (Instance * World) unit :=
  self ← get_self;
  put_self (set_deleted_at None self);;
  models.Model_save.

End SoftDeleteModel.

(** The two instance methods that end in [self.save()], with that framework
    method left open: whatever the model class and Django make of it (it
    may assign the primary key, refresh [auto_now] columns, run signal
    receivers). *)
Section AnySave.

Variable save : M (Instance * World) unit.



End AnySave.

(** ** Calling a method on a query-set object

    Python looks the method up on the class of the object.  [delete] passes
    its argument only if the caller gave one. *)

Definition call_delete (delete_permanently : option PyVal)
    : M (QuerySet * World) (option nat) :=
  self ← get_self;
  match qs_class self with
  | cls_SoftDeleteQuerySet =>
      SoftDeleteQuerySet.delete (default (PyBool false) delete_permanently)
  | cls_QuerySet =>
      match delete_permanently with
      | None => n ← on_world (models.QuerySet_delete self); mret (Some n)
      | Some _ => raise (TypeError "delete() takes 1 positional argument")
      end
  end.

Definition call_soft_delete : M (QuerySet * World) unit :=
  self ← get_self;
  match qs_class self with
  | cls_SoftDeleteQuerySet => SoftDeleteQuerySet.soft_delete
  | cls_QuerySet => raise (AttributeError "soft_delete")
  end.

Definition call_restore (use_manager : Manager) : M (QuerySet * World) unit :=
  self ← get_self;
  match qs_class self with
  | cls_SoftDeleteQuerySet => SoftDeleteQuerySet.restore use_manager
  | cls_QuerySet => raise (AttributeError "restore")
  end.

(** The query sets a manager produces: its own, and those reached from it
    by [filter], [exclude] and [all]. *)
Inductive produced_by (m : Manager) : QuerySet → Prop :=
| pb_get_queryset : produced_by m (manager_get_queryset m)
| pb_filter q qs :
    produced_by m qs → produced_by m (models.QuerySet_filter q qs)
| pb_exclude q qs :
    produced_by m qs → produced_by m (models.QuerySet_exclude q qs)
| pb_all qs :
    produced_by m qs → produced_by m (models.QuerySet_all qs).

(** ** Auxiliary definitions for the statements *)

(** The state a successful [soft_delete] leaves. *)
Definition soft_deleted_world (qs : QuerySet) (w : World) : World :=
  set_db (models.update_rows (qs_where qs) (Some (clock w)) (db w))
    (logged (UPDATE_deleted_at (qs_where qs) (Some (clock w)))
       (logged (SELECT_pk (qs_where qs)) w)).

Definition matched_pks (qs : QuerySet) (w : World) : list Z :=
  (map_to_list (models.rows qs (db w))).*1.

(** A key that no query set produced by manager [m] returns. *)
Definition hidden_from (m : Manager) (d : gmap Z Row) (k : Z) : Prop :=
  ∀ qs, produced_by m qs → models.rows qs d !! k = None.

(** A key that the plain [all()] of manager [m] returns, with its row. *)
Definition returned_by (m : Manager) (d : gmap Z Row) (k : Z) (r : Row)
    : Prop :=
  models.rows (manager_all m) d !! k = Some r.

(** One chained call on a query set. *)
Inductive Step :=
| step_filter (q : Q)
| step_exclude (q : Q)
| step_all.

Definition apply_step (qs : QuerySet) (st : Step) : QuerySet :=
  match st with
  | step_filter q => models.QuerySet_filter q qs
  | step_exclude q => models.QuerySet_exclude q qs
  | step_all => models.QuerySet_all qs
  end.

(** [manager.step1(..).step2(..)...]: the same chain of calls from the
    query set of a manager. *)
Definition manager_chain (m : Manager) (steps : list Step) : QuerySet :=
  foldl apply_step (manager_get_queryset m) steps.

(** ** Sample data *)

Definition row_a : Row := mkRow None {[ "name" := PyStr "A" ]}.
Definition row_b : Row := mkRow None {[ "name" := PyStr "B" ]}.
Definition row_c : Row := mkRow None {[ "name" := PyStr "C" ]}.

(** Three active records and a quiet database. *)
Definition world_abc : World :=
  {| db := <[1 := row_a]> (<[2 := row_b]> (<[3 := row_c]> ∅));
     clock := 100; faults := []; queries := [] |}.

(** The same table when the update of a query-set soft delete is
    interrupted from the keyboard. *)
Definition world_interrupted : World :=
  {| db := db world_abc; clock := 100;
     faults := [None; Some KeyboardInterrupt]; queries := [] |}.

(** The instance of record A as loaded from the table. *)
Definition inst_a : Instance :=
  {| pk := Some 1; deleted_at := None; fields := {[ "name" := PyStr "A" ]} |}.

(** An instance built in memory and never saved. *)
Definition inst_unsaved : Instance :=
  {| pk := None; deleted_at := None; fields := {[ "name" := PyStr "D" ]} |}.

(** The query set [objects.all()] once its [soft_delete()] has run on the
    three records, and the world it leaves. *)
Definition qs_after_soft_delete : QuerySet :=
  (SoftDeleteQuerySet.soft_delete
     (manager_all SoftDeleteModel.objects, world_abc)).2.1.

Definition world_after_soft_delete : World :=
  (SoftDeleteQuerySet.soft_delete
     (manager_all SoftDeleteModel.objects, world_abc)).2.2.

(** The three records when the first statement sent meets a database
    error and the following ones succeed. *)
Definition world_first_fails : World :=
  {| db := db world_abc; clock := 100;
     faults := [Some (DatabaseError "deadlock detected")]; queries := [] |}.

(** The world of [world_after_soft_delete] when the next statement sent
    meets a database error. *)
Definition world_restore_fails : World :=
  {| db := db world_after_soft_delete; clock := 200;
     faults := [Some (DatabaseError "deadlock detected")]; queries := [] |}.

(** [objects.filter(name="A")]. *)
Definition qs_named_a : QuerySet :=
  manager_filter (field__exact "name" (PyStr "A")) SoftDeleteModel.objects.

(** * Properties *)

(** ** The monad and the database primitives *)

Ltac unfold_monad :=
  unfold mbind, M_bind, mret, M_ret, raise, on_world, get_self, put_self,
    get_world, modify_db, timezone_now, try_except_Exception in *.

Lemma fault_at_logged st w i : fault_at (logged st w) i = fault_at w (S i).
Proof. unfold fault_at, logged; simpl. by rewrite lookup_tail. Qed.

Lemma execute_ok st w :
  fault_at w 0 = None → execute st w = (Return tt, logged st w).
Proof. intros H. unfold execute. by rewrite H. Qed.

Lemma execute_raises st w e :
  fault_at w 0 = Some e → execute st w = (Raise e, logged st w).
Proof. intros H. unfold execute. by rewrite H. Qed.

Lemma lookup_update_rows wh v d k :
  models.update_rows wh v d !! k =
  (λ r, if models.where_holds wh k r then row_set_deleted_at v r else r)
    <$> d !! k.
Proof.
  unfold models.update_rows. rewrite map_lookup_imap.
  by destruct (d !! k).
Qed.

Lemma lookup_rows_Some qs d k r :
  models.rows qs d !! k = Some r ↔
  d !! k = Some r ∧ models.where_holds (qs_where qs) k r = true.
Proof. unfold models.rows. by rewrite map_lookup_filter_Some. Qed.

Lemma lookup_rows_None qs d k :
  d !! k = None → models.rows qs d !! k = None.
Proof.
  intros H. unfold models.rows. apply map_lookup_filter_None. left. done.
Qed.

Lemma lookup_delete_rows_matched wh d k r :
  d !! k = Some r → models.where_holds wh k r = true →
  models.delete_rows wh d !! k = None.
Proof.
  intros Hk Hm. unfold models.delete_rows.
  apply map_lookup_filter_None. right. intros r' Hr'. simpl.
  rewrite Hk in Hr'. injection Hr' as <-. by rewrite Hm.
Qed.

Lemma lookup_delete_rows_unmatched wh d k r :
  d !! k = Some r → models.where_holds wh k r = false →
  models.delete_rows wh d !! k = Some r.
Proof.
  intros Hk Hm. unfold models.delete_rows.
  by apply map_lookup_filter_Some.
Qed.

(** The keys a query set lists are the keys of the rows it matches, each
    once. *)
Lemma elem_of_pks qs d k :
  k ∈ (map_to_list (models.rows qs d)).*1 ↔
  ∃ r, d !! k = Some r ∧ models.where_holds (qs_where qs) k r = true.
Proof.
  rewrite list_elem_of_fmap. split.
  - intros [[k' r] [-> Hin]]. simpl.
    apply elem_of_map_to_list in Hin. apply lookup_rows_Some in Hin. eauto.
  - intros (r & Hk & Hm). exists (k, r). split; [done|].
    apply elem_of_map_to_list. by apply lookup_rows_Some.
Qed.

Lemma NoDup_pks qs d : NoDup (map_to_list (models.rows qs d)).*1.
Proof. apply NoDup_fst_map_to_list. Qed.

(** ** Query-set [soft_delete] *)

Lemma soft_delete_run qs w :
  fault_at w 0 = None → fault_at w 1 = None →
  SoftDeleteQuerySet.soft_delete (qs, w) =
  (Return tt,
   (set_deleted_item_pks (matched_pks qs w) qs, soft_deleted_world qs w)).
Proof.
  intros H0 H1.
  unfold SoftDeleteQuerySet.soft_delete, models.QuerySet_values_list_pk,
    models.QuerySet_update.
  unfold_monad. simpl.
  rewrite (execute_ok _ _ H0). simpl.
  rewrite execute_ok by (by rewrite fault_at_logged).
  reflexivity.
Qed.

(** C2.  When neither database access fails, query-set [soft_delete()]
    first selects the primary keys of the rows the query set matches and
    stores them in [deleted_item_pks], then issues one [UPDATE] that sets
    [deleted_at] to the current time on exactly those rows: the statement
    log grows by the [SELECT] followed by the single [UPDATE], the rows whose
    key was captured carry the time of the clock, and every other row is as
    before. *)
Theorem soft_delete_captures_then_updates (qs : QuerySet) (w : World) :
  fault_at w 0 = None → fault_at w 1 = None →
  ∃ pks w',
    SoftDeleteQuerySet.soft_delete (qs, w)
      = (Return tt, (set_deleted_item_pks pks qs, w')) ∧
    NoDup pks ∧
    (∀ k, k ∈ pks ↔
          ∃ r, db w !! k = Some r ∧
               models.where_holds (qs_where qs) k r = true) ∧
    queries w' = queries w ++
      [SELECT_pk (qs_where qs);
       UPDATE_deleted_at (qs_where qs) (Some (clock w))] ∧
    (∀ k, db w' !! k =
          (λ r, if bool_decide (k ∈ pks)
                then row_set_deleted_at (Some (clock w)) r else r)
            <$> db w !! k).
Proof.
  intros H0 H1.
  exists (matched_pks qs w), (soft_deleted_world qs w).
  split; [by apply soft_delete_run|].
  split; [apply NoDup_pks|].
  split; [intros k; apply elem_of_pks|].
  split; [simpl; by rewrite <- app_assoc|].
  intros k. simpl. rewrite lookup_update_rows.
  destruct (db w !! k) as [r|] eqn:Hk; simpl; [|done].
  f_equal.
  destruct (models.where_holds (qs_where qs) k r) eqn:Hm.
  - rewrite bool_decide_eq_true_2; [done|]. apply elem_of_pks. eauto.
  - rewrite bool_decide_eq_false_2; [done|].
    intros Hin. apply elem_of_pks in Hin as (r' & Hr' & Hm').
    rewrite Hk in Hr'. injection Hr' as <-. congruence.
Qed.

Lemma soft_delete_captures_then_updates_witness :
  ∃ pks w',
    SoftDeleteQuerySet.soft_delete
      (manager_all SoftDeleteModel.objects, world_abc)
      = (Return tt,
         (set_deleted_item_pks pks (manager_all SoftDeleteModel.objects),
          w')) ∧
    NoDup pks ∧
    (∀ k, k ∈ pks ↔
          ∃ r, db world_abc !! k = Some r ∧
               models.where_holds
                 (qs_where (manager_all SoftDeleteModel.objects)) k r
               = true) ∧
    queries w' = queries world_abc ++
      [SELECT_pk (qs_where (manager_all SoftDeleteModel.objects));
       UPDATE_deleted_at (qs_where (manager_all SoftDeleteModel.objects))
         (Some (clock world_abc))] ∧
    (∀ k, db w' !! k =
          (λ r, if bool_decide (k ∈ pks)
                then row_set_deleted_at (Some (clock world_abc)) r else r)
            <$> db world_abc !! k).
Proof.
  apply (soft_delete_captures_then_updates
           (manager_all SoftDeleteModel.objects) world_abc);
    reflexivity.
Defined.

(** What a failing capture leaves: the exception as it is, no row changed,
    and the key list emptied by the handler or, for an exception the
    handler does not catch, the query set untouched. *)
Lemma soft_delete_capture_fails qs w e :
  fault_at w 0 = Some e →
  SoftDeleteQuerySet.soft_delete (qs, w)
  = (Raise e,
     (if isinstance_Exception e then set_deleted_item_pks [] qs else qs,
      logged (SELECT_pk (qs_where qs)) w)).
Proof.
  intros H0.
  unfold SoftDeleteQuerySet.soft_delete, models.QuerySet_values_list_pk.
  unfold_monad. simpl. rewrite (execute_raises _ _ _ H0). simpl.
  by destruct (isinstance_Exception e).
Qed.

(** What a failing update leaves: the exception as it is, no row changed,
    and the key list emptied by the handler or, for an exception the
    handler does not catch, still holding the keys just captured. *)
Lemma soft_delete_update_fails qs w e :
  fault_at w 0 = None → fault_at w 1 = Some e →
  SoftDeleteQuerySet.soft_delete (qs, w)
  = (Raise e,
     (if isinstance_Exception e then set_deleted_item_pks [] qs
      else set_deleted_item_pks (matched_pks qs w) qs,
      logged (UPDATE_deleted_at (qs_where qs) (Some (clock w)))
        (logged (SELECT_pk (qs_where qs)) w))).
Proof.
  intros H0 H1.
  unfold SoftDeleteQuerySet.soft_delete, models.QuerySet_values_list_pk,
    models.QuerySet_update.
  unfold_monad. simpl. rewrite (execute_ok _ _ H0). simpl.
  rewrite (execute_raises _ _ e) by (by rewrite fault_at_logged). simpl.
  by destruct (isinstance_Exception e).
Qed.

(** C3, as amended.  If the capture or the update raises, the very same
    exception reaches the caller.  If it is an instance of [Exception], the
    key cache has been reset to the empty list.  An exception outside
    [Exception] is not caught and leaves the cache as the [try] body left
    it: the query set is untouched when the capture raised, and holds the
    keys just captured when the update raised. *)
Theorem soft_delete_failure_resets_cache
    (qs : QuerySet) (w : World) (e : PyExc) :
  fault_at w 0 = Some e ∨ (fault_at w 0 = None ∧ fault_at w 1 = Some e) →
  ∃ qs' w',
    SoftDeleteQuerySet.soft_delete (qs, w) = (Raise e, (qs', w')) ∧
    (isinstance_Exception e = true → qs' = set_deleted_item_pks [] qs) ∧
    (isinstance_Exception e = false → fault_at w 0 = Some e → qs' = qs) ∧
    (isinstance_Exception e = false → fault_at w 0 = None →
     qs' = set_deleted_item_pks (matched_pks qs w) qs).
Proof.
  intros [H0 | [H0 H1]].
  - eexists _, _. split; [by apply soft_delete_capture_fails|].
    split; [by intros ->|]. split; [by intros ->|].
    intros _ Hnone. congruence.
  - eexists _, _. split; [by apply soft_delete_update_fails|].
    split; [by intros ->|]. split; [|by intros ->].
    intros _ Hsome. congruence.
Qed.

Lemma soft_delete_failure_resets_cache_witness :
  ∃ qs' w',
    SoftDeleteQuerySet.soft_delete
      (manager_all SoftDeleteModel.objects, world_first_fails)
    = (Raise (DatabaseError "deadlock detected"), (qs', w')) ∧
    (isinstance_Exception (DatabaseError "deadlock detected") = true →
     qs' = set_deleted_item_pks [] (manager_all SoftDeleteModel.objects)) ∧
    (isinstance_Exception (DatabaseError "deadlock detected") = false →
     fault_at world_first_fails 0
       = Some (DatabaseError "deadlock detected") →
     qs' = manager_all SoftDeleteModel.objects) ∧
    (isinstance_Exception (DatabaseError "deadlock detected") = false →
     fault_at world_first_fails 0 = None →
     qs' = set_deleted_item_pks
             (matched_pks (manager_all SoftDeleteModel.objects)
                world_first_fails)
             (manager_all SoftDeleteModel.objects)).
Proof.
  apply (soft_delete_failure_resets_cache
           (manager_all SoftDeleteModel.objects) world_first_fails
           (DatabaseError "deadlock detected")).
  left. reflexivity.
Defined.

(** C3 as stated fails: a [KeyboardInterrupt] during the update is not
    caught by [except Exception], so it propagates while the cache keeps
    the captured keys instead of the empty list. *)
Lemma soft_delete_interrupt_keeps_cache :
  fault_at world_interrupted 0 = None ∧
  fault_at world_interrupted 1 = Some KeyboardInterrupt ∧
  (SoftDeleteQuerySet.soft_delete
     (manager_all SoftDeleteModel.objects, world_interrupted)).1
    = Raise KeyboardInterrupt ∧
  deleted_item_pks
    (SoftDeleteQuerySet.soft_delete
       (manager_all SoftDeleteModel.objects, world_interrupted)).2.1
    ≠ Some [].
Proof. vm_compute. repeat split; discriminate. Qed.

(** ** The [delete_permanently] flag *)

(** What [v == True] accepts. *)
Lemma py_eq_True v :
  py_eq v (PyBool true) = true ↔ v = PyBool true ∨ v = PyInt 1.
Proof.
  split.
  - destruct v as [|[]|n|s]; simpl; try discriminate; auto.
    intros H. right. f_equal. lia.
  - intros [-> | ->]; reflexivity.
Qed.

(** Every value that [== True] rejects soft-deletes, on both classes. *)
Lemma delete_soft_path v :
  py_eq v (PyBool true) = false →
  SoftDeleteQuerySet.delete v
    = (SoftDeleteQuerySet.soft_delete;; mret None) ∧
  SoftDeleteModel.delete v
    = (SoftDeleteModel.soft_delete;; mret None).
Proof.
  intros H. unfold SoftDeleteQuerySet.delete, SoftDeleteModel.delete.
  by rewrite H.
Qed.

Lemma delete_nonempty_string_soft s :
  py_eq (PyStr s) (PyBool true) = false.
Proof. reflexivity. Qed.

(** C1, at the input where the code departs from it.  The integer 1 is
    truthy and is not the boolean [True], yet [1 == True] holds, so
    [delete(delete_permanently=1)] removes the rows for good on a query set
    and on an instance: the table loses them and no [deleted_at] is
    written. *)
Theorem delete_permanently_int_1_is_permanent :
  py_truthy (PyInt 1) = true ∧
  py_is_True (PyInt 1) = false ∧
  SoftDeleteQuerySet.delete (PyInt 1)
    = SoftDeleteQuerySet.delete (PyBool true) ∧
  SoftDeleteModel.delete (PyInt 1) = SoftDeleteModel.delete (PyBool true) ∧
  (SoftDeleteQuerySet.delete (PyInt 1)
     (manager_all SoftDeleteModel.objects, world_abc)).1
    = Return (Some 3%nat) ∧
  db (SoftDeleteQuerySet.delete (PyInt 1)
        (manager_all SoftDeleteModel.objects, world_abc)).2.2 = ∅ ∧
  (SoftDeleteModel.delete (PyInt 1) (inst_a, world_abc)).1
    = Return (Some 1%nat) ∧
  db (SoftDeleteModel.delete (PyInt 1) (inst_a, world_abc)).2.2 !! 1
    = None.
Proof. vm_compute. repeat split. Qed.

(** ** Query-set [restore] *)

Lemma where_holds_app wh1 wh2 k r :
  models.where_holds (wh1 ++ wh2) k r
  = models.where_holds wh1 k r && models.where_holds wh2 k r.
Proof. unfold models.where_holds. apply forallb_app. Qed.

Lemma where_holds_pk__in wh pks k r :
  models.where_holds (wh ++ [pk__in pks]) k r
  = bool_decide (k ∈ pks) && models.where_holds wh k r.
Proof.
  rewrite where_holds_app. simpl. rewrite andb_true_r. apply andb_comm.
Qed.

(** The world a restore with a non-empty cache leaves. *)
Lemma restore_run qs w m pks :
  deleted_item_pks qs = Some pks → pks ≠ [] → fault_at w 0 = None →
  SoftDeleteQuerySet.restore m (qs, w) =
  (Return tt,
   (set_deleted_item_pks [] qs,
    set_db
      (models.update_rows
         (qs_where (manager_get_queryset m) ++ [pk__in pks]) None (db w))
      (logged
         (UPDATE_deleted_at
            (qs_where (manager_get_queryset m) ++ [pk__in pks]) None) w))).
Proof.
  intros Hc Hne H0. destruct pks as [|p pks]; [done|].
  unfold SoftDeleteQuerySet.restore, models.QuerySet_update.
  unfold_monad. simpl. rewrite Hc.
  unfold manager_filter, models.QuerySet_filter. simpl.
  by rewrite (execute_ok _ _ H0).
Qed.

Lemma restore_noop qs w m :
  deleted_item_pks qs = None ∨ deleted_item_pks qs = Some [] →
  SoftDeleteQuerySet.restore m (qs, w) = (Return tt, (qs, w)).
Proof.
  intros [H | H]; unfold SoftDeleteQuerySet.restore; unfold_monad;
    simpl; by rewrite H.
Qed.

(** C4, as amended.  With a non-empty captured list, [restore(use_manager)]
    issues one [UPDATE] through the query set of the manager it is given,
    narrowed to the captured keys: [deleted_at] becomes null on exactly the
    rows that this manager's query set matches and whose key is in the
    list, and the list is emptied afterwards.  Through the plain manager
    (the one bound to [all_objects]) these are exactly the rows whose key is
    in the list.  With no list, or an empty one, [restore] sends nothing,
    changes nothing and returns. *)
Theorem restore_updates_rows_of_manager
    (qs : QuerySet) (w : World) (use_manager : Manager) :
  (∀ pks,
     deleted_item_pks qs = Some pks → pks ≠ [] → fault_at w 0 = None →
     ∃ w',
       SoftDeleteQuerySet.restore use_manager (qs, w)
         = (Return tt, (set_deleted_item_pks [] qs, w')) ∧
       queries w' = queries w ++
         [UPDATE_deleted_at
            (qs_where (manager_get_queryset use_manager) ++ [pk__in pks])
            None] ∧
       (∀ k, db w' !! k =
             (λ r, if bool_decide (k ∈ pks) &&
                      models.where_holds
                        (qs_where (manager_get_queryset use_manager)) k r
                   then row_set_deleted_at None r else r)
               <$> db w !! k) ∧
       (use_manager = mgr_Manager →
        ∀ k, db w' !! k =
             (λ r, if bool_decide (k ∈ pks)
                   then row_set_deleted_at None r else r)
               <$> db w !! k)) ∧
  (deleted_item_pks qs = None ∨ deleted_item_pks qs = Some [] →
   SoftDeleteQuerySet.restore use_manager (qs, w) = (Return tt, (qs, w))).
Proof.
  split; [|apply restore_noop].
  intros pks Hc Hne H0. eexists. split; [by apply restore_run|].
  split; [done|].
  assert (Hlk : ∀ k, models.update_rows
             (qs_where (manager_get_queryset use_manager) ++ [pk__in pks])
             None (db w) !! k =
           (λ r, if bool_decide (k ∈ pks) &&
                    models.where_holds
                      (qs_where (manager_get_queryset use_manager)) k r
                 then row_set_deleted_at None r else r) <$> db w !! k).
  { intros k. rewrite lookup_update_rows.
    destruct (db w !! k) as [r|]; simpl; [|done].
    by rewrite where_holds_pk__in. }
  split; [exact Hlk|].
  intros -> k. simpl. rewrite Hlk. simpl.
  destruct (db w !! k) as [r|]; simpl; [|done].
  by rewrite andb_true_r.
Qed.

Lemma restore_updates_rows_of_manager_witness :
  (∃ w',
     SoftDeleteQuerySet.restore SoftDeleteModel.all_objects
       (qs_after_soft_delete, world_after_soft_delete)
       = (Return tt, (set_deleted_item_pks [] qs_after_soft_delete, w')) ∧
     queries w' = queries world_after_soft_delete ++
       [UPDATE_deleted_at
          (qs_where (manager_get_queryset SoftDeleteModel.all_objects)
             ++ [pk__in [3; 2; 1]])
          None] ∧
     (∀ k, db w' !! k =
           (λ r, if bool_decide (k ∈ [3; 2; 1]) &&
                    models.where_holds
                      (qs_where
                         (manager_get_queryset SoftDeleteModel.all_objects))
                      k r
                 then row_set_deleted_at None r else r)
             <$> db world_after_soft_delete !! k) ∧
     (SoftDeleteModel.all_objects = mgr_Manager →
      ∀ k, db w' !! k =
           (λ r, if bool_decide (k ∈ [3; 2; 1])
                 then row_set_deleted_at None r else r)
             <$> db world_after_soft_delete !! k)) ∧
  SoftDeleteQuerySet.restore SoftDeleteModel.all_objects
    (manager_all SoftDeleteModel.objects, world_abc)
    = (Return tt, (manager_all SoftDeleteModel.objects, world_abc)).
Proof.
  split.
  - apply (proj1 (restore_updates_rows_of_manager
                    qs_after_soft_delete world_after_soft_delete
                    SoftDeleteModel.all_objects) [3; 2; 1]).
    + reflexivity.
    + discriminate.
    + reflexivity.
  - apply (proj2 (restore_updates_rows_of_manager
                    (manager_all SoftDeleteModel.objects) world_abc
                    SoftDeleteModel.all_objects)).
    left. reflexivity.
Defined.

(** C4 as stated fails for a manager that filters: after
    [objects.all()] has soft-deleted the three records, restoring through
    [objects] itself returns without an error and empties the list, but the
    rows whose keys were in the list keep their [deleted_at]. *)
Lemma restore_through_objects_restores_nothing :
  deleted_item_pks qs_after_soft_delete = Some [3; 2; 1] ∧
  (SoftDeleteQuerySet.restore SoftDeleteModel.objects
     (qs_after_soft_delete, world_after_soft_delete)).1 = Return tt ∧
  deleted_item_pks
    (SoftDeleteQuerySet.restore SoftDeleteModel.objects
       (qs_after_soft_delete, world_after_soft_delete)).2.1 = Some [] ∧
  row_deleted_at <$>
    db (SoftDeleteQuerySet.restore SoftDeleteModel.objects
          (qs_after_soft_delete, world_after_soft_delete)).2.2 !! 1
    = Some (Some 100) ∧
  row_deleted_at <$>
    db (SoftDeleteQuerySet.restore SoftDeleteModel.all_objects
          (qs_after_soft_delete, world_after_soft_delete)).2.2 !! 1
    = Some None.
Proof. vm_compute. repeat split. Qed.



(** ** Managers and visibility *)

Lemma where_holds_isnull k r :
  models.where_holds [deleted_at__isnull true] k r = true ↔
  row_deleted_at r = None.
Proof.
  simpl. rewrite andb_true_r, bool_decide_eq_true, bool_decide_eq_true.
  done.
Qed.

Lemma where_holds_In wh q k r :
  q ∈ wh → models.where_holds wh k r = true → Q_holds q k r = true.
Proof.
  intros Hin Hall. unfold models.where_holds in Hall.
  rewrite forallb_forall in Hall. apply Hall. by apply list_elem_of_In.
Qed.

(** Every query set of a soft-delete manager carries the null test. *)
Lemma produced_by_carries_isnull m qs :
  m ≠ mgr_Manager → produced_by m qs →
  deleted_at__isnull true ∈ qs_where qs.
Proof.
  intros Hm Hp. induction Hp as [|q qs _ IH|q qs _ IH|qs _ IH]; simpl.
  - destruct m; [done| |]; simpl; set_solver.
  - set_solver.
  - set_solver.
  - done.
Qed.

Lemma produced_by_only_active m qs d k r :
  m ≠ mgr_Manager → produced_by m qs →
  models.rows qs d !! k = Some r → row_deleted_at r = None.
Proof.
  intros Hm Hp Hk. apply lookup_rows_Some in Hk as [_ Hall].
  pose proof (where_holds_In _ _ k r
                (produced_by_carries_isnull m qs Hm Hp) Hall) as Hq.
  simpl in Hq. by rewrite !bool_decide_eq_true in Hq.
Qed.

Lemma deleted_row_hidden m d k r :
  m ≠ mgr_Manager → d !! k = Some r → row_deleted_at r ≠ None →
  hidden_from m d k.
Proof.
  intros Hm Hk Hdel qs Hp.
  destruct (models.rows qs d !! k) as [r'|] eqn:Hr; [|done].
  pose proof (produced_by_only_active m qs d k r' Hm Hp Hr) as Hnull.
  apply lookup_rows_Some in Hr as [Hr _]. congruence.
Qed.

Lemma all_objects_returns d k r :
  d !! k = Some r → returned_by mgr_Manager d k r.
Proof. intros Hk. unfold returned_by. by apply lookup_rows_Some. Qed.

(** ** Counting *)

Lemma count_run qs w :
  fault_at w 0 = None →
  models.QuerySet_count qs w
  = (Return (size (models.rows qs (db w))),
     logged (SELECT_count (qs_where qs)) w).
Proof.
  intros H0. unfold models.QuerySet_count. unfold_monad.
  by rewrite (execute_ok _ _ H0).
Qed.

Lemma size_update_rows wh v d : size (models.update_rows wh v d) = size d.
Proof.
  rewrite <- !size_dom. f_equal. apply set_eq. intros k.
  rewrite !elem_of_dom, lookup_update_rows, fmap_is_Some. done.
Qed.

Lemma rows_all_objects d : models.rows (manager_all mgr_Manager) d = d.
Proof. unfold models.rows. by apply map_filter_id. Qed.

(** ** Soft delete followed by restore *)

(** Restoring, through the plain manager, the keys that [objects.all()]
    captured undoes the update of its soft delete. *)
Lemma restore_undoes_soft_delete w t :
  models.update_rows
    (qs_where (manager_get_queryset mgr_Manager)
       ++ [pk__in (matched_pks (manager_all mgr_SoftDeleteManager) w)])
    None
    (models.update_rows
       (qs_where (manager_all mgr_SoftDeleteManager)) (Some t) (db w))
  = db w.
Proof.
  apply map_eq. intros k. rewrite !lookup_update_rows.
  destruct (db w !! k) as [r|] eqn:Hk; simpl; [|done]. f_equal.
  rewrite andb_true_r.
  destruct (bool_decide (row_deleted_at r = None)) eqn:Hnull; simpl.
  - apply bool_decide_eq_true in Hnull.
    rewrite bool_decide_eq_true_2.
    + destruct r as [da fs]. simpl in Hnull. by subst da.
    + apply elem_of_pks. exists r. split; [done|].
      by apply where_holds_isnull.
  - apply bool_decide_eq_false in Hnull.
    rewrite bool_decide_eq_false_2; [done|].
    intros Hin. apply elem_of_pks in Hin as (r' & Hr' & Hm).
    rewrite Hk in Hr'. injection Hr' as <-.
    by apply where_holds_isnull in Hm.
Qed.

Lemma update_rows_no_keys v d :
  models.update_rows
    (qs_where (manager_get_queryset mgr_Manager) ++ [pk__in []]) v d = d.
Proof.
  apply map_eq. intros k. rewrite lookup_update_rows.
  by destruct (d !! k) as [r|].
Qed.

(** C7.  On any table and with no database failure,
    [qs = objects.all(); qs.delete()] leaves every record with a non-null
    [deleted_at], so [objects] counts none and [all_objects] counts them
    all; then [qs.restore(all_objects)], on that same query-set object,
    brings the table back to what it was, so every record that was active
    is again returned by [objects]. *)
Theorem delete_then_restore_round_trip (w : World) :
  fault_at w 0 = None → fault_at w 1 = None → fault_at w 2 = None →
  ∃ qs1 w1 w2,
    call_delete None (manager_all SoftDeleteModel.objects, w)
      = (Return None, (qs1, w1)) ∧
    (∀ k r, db w1 !! k = Some r → row_deleted_at r ≠ None) ∧
    size (models.rows (manager_all SoftDeleteModel.objects) (db w1))
      = 0%nat ∧
    size (models.rows (manager_all SoftDeleteModel.all_objects) (db w1))
      = size (db w) ∧
    call_restore SoftDeleteModel.all_objects (qs1, w1)
      = (Return tt, (set_deleted_item_pks [] qs1, w2)) ∧
    db w2 = db w ∧
    (∀ k r, db w !! k = Some r → row_deleted_at r = None →
            returned_by SoftDeleteModel.objects (db w2) k r).
Proof.
  intros H0 H1 H2.
  unfold SoftDeleteModel.objects, SoftDeleteModel.all_objects.
  set (qs := manager_all mgr_SoftDeleteManager).
  assert (Hdel : ∀ k r, db (soft_deleted_world qs w) !! k = Some r →
                        row_deleted_at r ≠ None).
  { intros k r. simpl. rewrite lookup_update_rows.
    destruct (db w !! k) as [r0|]; simpl; [|done].
    rewrite andb_true_r.
    destruct (bool_decide (row_deleted_at r0 = None)) eqn:Hn; simpl;
      intros [= <-]; [done|].
    by apply bool_decide_eq_false in Hn. }
  assert (Hrestore : ∃ w2,
    SoftDeleteQuerySet.restore mgr_Manager
      (set_deleted_item_pks (matched_pks qs w) qs, soft_deleted_world qs w)
    = (Return tt, (set_deleted_item_pks [] qs, w2)) ∧ db w2 = db w).
  { destruct (matched_pks qs w) as [|p pks] eqn:Hpks.
    - eexists. split; [apply restore_noop; by right|].
      pose proof (restore_undoes_soft_delete w (clock w)) as Hu.
      fold qs in Hu. rewrite Hpks, update_rows_no_keys in Hu. exact Hu.
    - eexists. split.
      + rewrite (restore_run _ _ mgr_Manager (p :: pks));
          [reflexivity|done|done|].
        unfold soft_deleted_world.
        change (fault_at (logged
                  (UPDATE_deleted_at (qs_where qs) (Some (clock w)))
                  (logged (SELECT_pk (qs_where qs)) w)) 0
                = None).
        by rewrite !fault_at_logged.
      + simpl. rewrite <- Hpks. apply restore_undoes_soft_delete. }
  destruct Hrestore as (w2 & Hr & Hdb).
  exists (set_deleted_item_pks (matched_pks qs w) qs),
    (soft_deleted_world qs w), w2.
  split.
  { unfold call_delete, SoftDeleteQuerySet.delete. unfold_monad. simpl.
    fold qs. by rewrite (soft_delete_run qs w H0 H1). }
  split; [exact Hdel|].
  split.
  { apply map_size_empty_iff, map_eq. intros k. rewrite lookup_empty.
    destruct (models.rows qs (db (soft_deleted_world qs w)) !! k)
      as [r|] eqn:Hk; [|done].
    apply lookup_rows_Some in Hk as [Hk Hm].
    apply where_holds_isnull in Hm. by apply Hdel in Hk. }
  split.
  { rewrite rows_all_objects. simpl. apply size_update_rows. }
  split.
  { unfold call_restore. unfold_monad. simpl. exact Hr. }
  split; [exact Hdb|].
  intros k r Hk Hnull. unfold returned_by. rewrite Hdb.
  apply lookup_rows_Some. split; [done|]. by apply where_holds_isnull.
Qed.

Lemma delete_then_restore_round_trip_witness :
  ∃ qs1 w1 w2,
    call_delete None (manager_all SoftDeleteModel.objects, world_abc)
      = (Return None, (qs1, w1)) ∧
    (∀ k r, db w1 !! k = Some r → row_deleted_at r ≠ None) ∧
    size (models.rows (manager_all SoftDeleteModel.objects) (db w1))
      = 0%nat ∧
    size (models.rows (manager_all SoftDeleteModel.all_objects) (db w1))
      = size (db world_abc) ∧
    call_restore SoftDeleteModel.all_objects (qs1, w1)
      = (Return tt, (set_deleted_item_pks [] qs1, w2)) ∧
    db w2 = db world_abc ∧
    (∀ k r, db world_abc !! k = Some r → row_deleted_at r = None →
            returned_by SoftDeleteModel.objects (db w2) k r).
Proof.
  apply (delete_then_restore_round_trip world_abc); reflexivity.
Defined.

(** ** Saving and deleting an instance *)

Lemma set_pk_same obj k : pk obj = Some k → set_pk (Some k) obj = obj.
Proof. destruct obj as [p d f]. simpl. by intros ->. Qed.

(** A save that meets no failure leaves the row of the instance in the
    table, under the key of the instance if it has one. *)
Lemma save_run obj w :
  fault_at w 0 = None → fault_at w 1 = None →
  ∃ k w',
    models.Model_save (obj, w) = (Return tt, (set_pk (Some k) obj, w')) ∧
    (∀ k0, pk obj = Some k0 → k = k0) ∧
    db w' = <[k := row_of obj]> (db w).
Proof.
  intros H0 H1. unfold models.Model_save. unfold_monad. simpl.
  destruct (pk obj) as [k|] eqn:Hpk.
  - exists k. rewrite (execute_ok _ _ H0). simpl.
    destruct (decide (is_Some (db w !! k))) as [Hrow | Hrow]; simpl.
    + eexists. rewrite (set_pk_same _ _ Hpk).
      split; [reflexivity|]. split; [by intros k0 [= ->]|done].
    + rewrite execute_ok by (by rewrite fault_at_logged). simpl.
      eexists. rewrite (set_pk_same _ _ Hpk).
      split; [reflexivity|]. split; [by intros k0 [= ->]|done].
  - exists (models.fresh_pk (db w)). rewrite (execute_ok _ _ H0). simpl.
    eexists. split; [reflexivity|]. split; [done|done].
Qed.


Lemma model_soft_delete_unfold obj w :
  SoftDeleteModel.soft_delete (obj, w)
  = models.Model_save (set_deleted_at (Some (clock w)) obj, w).
Proof. reflexivity. Qed.

Lemma model_restore_unfold obj w :
  SoftDeleteModel.restore (obj, w)
  = models.Model_save (set_deleted_at None obj, w).
Proof. reflexivity. Qed.

Lemma model_delete_run obj w k :
  pk obj = Some k → fault_at w 0 = None →
  models.Model_delete (obj, w)
  = (Return (if decide (is_Some (db w !! k)) then 1%nat else 0%nat),
     (set_pk None obj,
      set_db (delete k (db w)) (logged (DELETE_pk k) w))).
Proof.
  intros Hpk H0. unfold models.Model_delete. unfold_monad. simpl.
  rewrite Hpk. by rewrite (execute_ok _ _ H0).
Qed.

Lemma queryset_delete_run qs w :
  fault_at w 0 = None →
  models.QuerySet_delete qs w
  = (Return (size (models.rows qs (db w))),
     set_db (models.delete_rows (qs_where qs) (db w))
       (logged (DELETE_where (qs_where qs)) w)).
Proof.
  intros H0. unfold models.QuerySet_delete. unfold_monad.
  by rewrite (execute_ok _ _ H0).
Qed.

Lemma missing_row_hidden_from m d k : d !! k = None → hidden_from m d k.
Proof. intros Hk qs _. by apply lookup_rows_None. Qed.

(** ** Permanent delete *)

(** C5.  With no database failure, [delete(delete_permanently=True)] goes
    to the framework's delete.  On an instance that has a key, the row of
    that key leaves the table; on a query set, one [DELETE] removes every
    row it matches and no other.  A removed row is returned by no query set
    of any manager, [objects] and [all_objects] included. *)
Theorem delete_permanently_removes_rows (w : World) :
  fault_at w 0 = None →
  (∀ obj k, pk obj = Some k →
     ∃ n w',
       SoftDeleteModel.delete (PyBool true) (obj, w)
         = (Return (Some n), (set_pk None obj, w')) ∧
       db w' = delete k (db w) ∧
       hidden_from SoftDeleteModel.objects (db w') k ∧
       hidden_from SoftDeleteModel.all_objects (db w') k) ∧
  (∀ qs,
     ∃ n w',
       SoftDeleteQuerySet.delete (PyBool true) (qs, w)
         = (Return (Some n), (qs, w')) ∧
       queries w' = queries w ++ [DELETE_where (qs_where qs)] ∧
       (∀ k r, db w !! k = Some r →
               models.where_holds (qs_where qs) k r = true →
               db w' !! k = None ∧
               hidden_from SoftDeleteModel.objects (db w') k ∧
               hidden_from SoftDeleteModel.all_objects (db w') k) ∧
       (∀ k r, db w !! k = Some r →
               models.where_holds (qs_where qs) k r = false →
               db w' !! k = Some r)).
Proof.
  intros H0. split.
  - intros obj k Hpk. eexists _, _. split.
    + unfold SoftDeleteModel.delete. simpl. unfold mbind, M_bind.
      rewrite (model_delete_run obj w k Hpk H0). reflexivity.
    + simpl. split; [done|].
      split; apply missing_row_hidden_from, lookup_delete_eq.
  - intros qs. eexists _, _. split.
    + unfold SoftDeleteQuerySet.delete. simpl. unfold_monad. simpl.
      rewrite (queryset_delete_run qs w H0). reflexivity.
    + simpl. split; [done|]. split.
      * intros k r Hk Hm.
        pose proof (lookup_delete_rows_matched _ _ _ _ Hk Hm) as Hgone.
        split; [done|]. split; by apply missing_row_hidden_from.
      * intros k r Hk Hm. by apply lookup_delete_rows_unmatched.
Qed.

Lemma delete_permanently_removes_rows_witness :
  (∃ n w',
     SoftDeleteModel.delete (PyBool true) (inst_a, world_abc)
       = (Return (Some n), (set_pk None inst_a, w')) ∧
     db w' = delete 1 (db world_abc) ∧
     hidden_from SoftDeleteModel.objects (db w') 1 ∧
     hidden_from SoftDeleteModel.all_objects (db w') 1) ∧
  (∃ n w',
     SoftDeleteQuerySet.delete (PyBool true)
       (manager_all SoftDeleteModel.objects, world_abc)
       = (Return (Some n), (manager_all SoftDeleteModel.objects, w')) ∧
     queries w' = queries world_abc ++
       [DELETE_where (qs_where (manager_all SoftDeleteModel.objects))] ∧
     (∀ k r, db world_abc !! k = Some r →
             models.where_holds
               (qs_where (manager_all SoftDeleteModel.objects)) k r = true →
             db w' !! k = None ∧
             hidden_from SoftDeleteModel.objects (db w') k ∧
             hidden_from SoftDeleteModel.all_objects (db w') k) ∧
     (∀ k r, db world_abc !! k = Some r →
             models.where_holds
               (qs_where (manager_all SoftDeleteModel.objects)) k r = false →
             db w' !! k = Some r)).
Proof.
  split.
  - apply (proj1 (delete_permanently_removes_rows world_abc eq_refl)
             inst_a 1).
    reflexivity.
  - apply (proj2 (delete_permanently_removes_rows world_abc eq_refl)
             (manager_all SoftDeleteModel.objects)).
Defined.

(** ** Visibility after a soft delete *)

(** C6.  Whether a stored record is returned by a soft-delete manager
    depends on nothing but the nullity of its [deleted_at]; the plain
    manager returns it either way.  After a [delete] whose flag is not
    [== True], met by no database failure, the record of the instance
    carries the time of the clock in [deleted_at], no query set produced by
    [objects] or by the user-model manager returns it, and [all_objects]
    still does.  The same holds for every row matched by a query set on
    which such a [delete] ran. *)
Theorem soft_deleted_record_visibility (w : World) (v : PyVal) :
  py_eq v (PyBool true) = false →
  fault_at w 0 = None → fault_at w 1 = None →
  (∀ m k r, m ≠ mgr_Manager → db w !! k = Some r →
     (returned_by m (db w) k r ↔ row_deleted_at r = None) ∧
     returned_by SoftDeleteModel.all_objects (db w) k r) ∧
  (∀ obj,
     ∃ k w',
       SoftDeleteModel.delete v (obj, w)
         = (Return None,
            (set_pk (Some k) (set_deleted_at (Some (clock w)) obj), w')) ∧
       (∀ k0, pk obj = Some k0 → k = k0) ∧
       db w' !! k = Some (mkRow (Some (clock w)) (fields obj)) ∧
       hidden_from SoftDeleteModel.objects (db w') k ∧
       hidden_from mgr_UserSoftDeleteManager (db w') k ∧
       returned_by SoftDeleteModel.all_objects (db w') k
         (mkRow (Some (clock w)) (fields obj))) ∧
  (∀ qs,
     ∃ pks w',
       SoftDeleteQuerySet.delete v (qs, w)
         = (Return None, (set_deleted_item_pks pks qs, w')) ∧
       ∀ k r, db w !! k = Some r →
              models.where_holds (qs_where qs) k r = true →
              db w' !! k = Some (row_set_deleted_at (Some (clock w)) r) ∧
              hidden_from SoftDeleteModel.objects (db w') k ∧
              hidden_from mgr_UserSoftDeleteManager (db w') k ∧
              returned_by SoftDeleteModel.all_objects (db w') k
                (row_set_deleted_at (Some (clock w)) r)).
Proof.
  intros Hv H0 H1. split; [|split].
  - intros m k r Hm Hk. split; [|by apply all_objects_returns].
    unfold returned_by. rewrite lookup_rows_Some.
    assert (models.where_holds (qs_where (manager_all m)) k r = true
            ↔ row_deleted_at r = None) as ->
      by (destruct m; [done|apply where_holds_isnull..]).
    tauto.
  - intros obj.
    destruct (save_run (set_deleted_at (Some (clock w)) obj) w H0 H1)
      as (k & w' & Hrun & Hkey & Hdb).
    exists k, w'.
    assert (Hrow : db w' !! k = Some (mkRow (Some (clock w)) (fields obj)))
      by (rewrite Hdb; apply lookup_insert_eq).
    split.
    { unfold SoftDeleteModel.delete. rewrite Hv. unfold mbind, M_bind.
      rewrite model_soft_delete_unfold, Hrun. reflexivity. }
    split; [exact Hkey|]. split; [exact Hrow|].
    split; [by eapply deleted_row_hidden|].
    split; [by eapply deleted_row_hidden|].
    by apply all_objects_returns.
  - intros qs.
    exists (matched_pks qs w), (soft_deleted_world qs w). split.
    { unfold SoftDeleteQuerySet.delete. rewrite Hv. unfold mbind, M_bind.
      rewrite (soft_delete_run qs w H0 H1). reflexivity. }
    intros k r Hk Hm.
    assert (Hrow : db (soft_deleted_world qs w) !! k
                   = Some (row_set_deleted_at (Some (clock w)) r)).
    { simpl. rewrite lookup_update_rows, Hk. simpl. by rewrite Hm. }
    split; [exact Hrow|].
    split; [by eapply deleted_row_hidden|].
    split; [by eapply deleted_row_hidden|].
    by apply all_objects_returns.
Qed.

Lemma soft_deleted_record_visibility_witness :
  ∃ k w',
    SoftDeleteModel.delete (PyStr "yes") (inst_a, world_abc)
      = (Return None,
         (set_pk (Some k) (set_deleted_at (Some (clock world_abc)) inst_a),
          w')) ∧
    (∀ k0, pk inst_a = Some k0 → k = k0) ∧
    db w' !! k = Some (mkRow (Some (clock world_abc)) (fields inst_a)) ∧
    hidden_from SoftDeleteModel.objects (db w') k ∧
    hidden_from mgr_UserSoftDeleteManager (db w') k ∧
    returned_by SoftDeleteModel.all_objects (db w') k
      (mkRow (Some (clock world_abc)) (fields inst_a)).
Proof.
  apply (proj1 (proj2 (soft_deleted_record_visibility world_abc
                         (PyStr "yes") eq_refl eq_refl eq_refl)) inst_a).
Defined.

(** ** Query sets of [all_objects] *)

Lemma produced_by_plain_class qs :
  produced_by mgr_Manager qs → qs_class qs = cls_QuerySet.
Proof. induction 1; done. Qed.

Lemma produced_by_soft_delete_class m qs :
  m ≠ mgr_Manager → produced_by m qs →
  qs_class qs = cls_SoftDeleteQuerySet.
Proof. intros Hm. induction 1; [by destruct m|done..]. Qed.

(** C9.  A query set obtained through [all_objects] is of the framework's
    plain class.  Looking up [soft_delete] or [restore] on it raises
    [AttributeError] and touches nothing.  Its [delete()], when the database
    does not fail, sends one [DELETE] that removes every matched row from
    the table; the rows that stay are unchanged, so none is soft-deleted. *)
Theorem all_objects_query_sets_delete_for_good (qs : QuerySet) (w : World) :
  produced_by SoftDeleteModel.all_objects qs →
  qs_class qs = cls_QuerySet ∧
  call_soft_delete (qs, w)
    = (Raise (AttributeError "soft_delete"), (qs, w)) ∧
  (∀ m, call_restore m (qs, w)
        = (Raise (AttributeError "restore"), (qs, w))) ∧
  (fault_at w 0 = None →
   ∃ n w',
     call_delete None (qs, w) = (Return (Some n), (qs, w')) ∧
     queries w' = queries w ++ [DELETE_where (qs_where qs)] ∧
     (∀ k r, db w !! k = Some r →
             models.where_holds (qs_where qs) k r = true →
             db w' !! k = None) ∧
     (∀ k r, db w' !! k = Some r → db w !! k = Some r)).
Proof.
  intros Hp. pose proof (produced_by_plain_class qs Hp) as Hc.
  split; [done|].
  split; [unfold call_soft_delete; unfold_monad; simpl; by rewrite Hc|].
  split; [intros m; unfold call_restore; unfold_monad; simpl;
          by rewrite Hc|].
  intros H0. eexists _, _. split.
  { unfold call_delete. unfold_monad. simpl. rewrite Hc.
    rewrite (queryset_delete_run qs w H0). reflexivity. }
  simpl. split; [done|]. split.
  - intros k r Hk Hm. by eapply lookup_delete_rows_matched.
  - intros k r Hk. unfold models.delete_rows in Hk.
    by apply map_lookup_filter_Some in Hk as [Hk _].
Qed.

Lemma all_objects_query_sets_delete_for_good_witness :
  qs_class (manager_all SoftDeleteModel.all_objects) = cls_QuerySet ∧
  call_soft_delete (manager_all SoftDeleteModel.all_objects, world_abc)
    = (Raise (AttributeError "soft_delete"),
       (manager_all SoftDeleteModel.all_objects, world_abc)) ∧
  (∀ m, call_restore m (manager_all SoftDeleteModel.all_objects, world_abc)
        = (Raise (AttributeError "restore"),
           (manager_all SoftDeleteModel.all_objects, world_abc))) ∧
  (fault_at world_abc 0 = None →
   ∃ n w',
     call_delete None (manager_all SoftDeleteModel.all_objects, world_abc)
       = (Return (Some n), (manager_all SoftDeleteModel.all_objects, w')) ∧
     queries w' = queries world_abc ++
       [DELETE_where (qs_where (manager_all SoftDeleteModel.all_objects))] ∧
     (∀ k r, db world_abc !! k = Some r →
             models.where_holds
               (qs_where (manager_all SoftDeleteModel.all_objects)) k r
             = true →
             db w' !! k = None) ∧
     (∀ k r, db w' !! k = Some r → db world_abc !! k = Some r)).
Proof.
  apply (all_objects_query_sets_delete_for_good
           (manager_all SoftDeleteModel.all_objects) world_abc).
  apply pb_get_queryset.
Defined.

(** ** The instance as a frame *)




(** * Further properties of the module *)

(** ** Query sets fresh from a manager *)

Lemma produced_by_no_cache m qs :
  produced_by m qs → deleted_item_pks qs = None.
Proof. induction 1; [by destruct m|done..]. Qed.

(** X1.  A query set as a soft-delete manager produces it (from
    [get_queryset], [filter], [exclude] or [all]) carries no captured keys:
    calling [restore] on it returns at once, sends no statement and changes
    no row, whichever manager is passed.  So [objects.all().delete()]
    followed by [restore] on a second [objects.all()] restores nothing. *)
Theorem fresh_query_set_restores_nothing
    (m use_manager : Manager) (qs : QuerySet) (w : World) :
  m ≠ mgr_Manager → produced_by m qs →
  call_restore use_manager (qs, w) = (Return tt, (qs, w)).
Proof.
  intros Hm Hp. unfold call_restore. unfold_monad. simpl.
  rewrite (produced_by_soft_delete_class m qs Hm Hp).
  apply restore_noop. left. by eapply produced_by_no_cache.
Qed.

Lemma fresh_query_set_restores_nothing_witness :
  call_restore SoftDeleteModel.all_objects
    (manager_all SoftDeleteModel.objects, world_after_soft_delete)
  = (Return tt,
     (manager_all SoftDeleteModel.objects, world_after_soft_delete)).
Proof.
  apply (fresh_query_set_restores_nothing SoftDeleteModel.objects).
  - discriminate.
  - apply pb_get_queryset.
Defined.

(** ** Soft-deleting twice *)

Lemma where_holds_deleted wh k r :
  deleted_at__isnull true ∈ wh → row_deleted_at r ≠ None →
  models.where_holds wh k r = false.
Proof.
  intros Hin Hdel.
  destruct (models.where_holds wh k r) eqn:Hm; [|done].
  pose proof (where_holds_In _ _ _ _ Hin Hm) as Hq. simpl in Hq.
  by rewrite !bool_decide_eq_true in Hq.
Qed.

(** Once a query set that tests for null has soft-deleted, it matches no
    row of the table it leaves. *)
Lemma soft_deleted_world_unmatched qs w k r :
  deleted_at__isnull true ∈ qs_where qs →
  db (soft_deleted_world qs w) !! k = Some r →
  models.where_holds (qs_where qs) k r = false.
Proof.
  intros Hin. simpl. rewrite lookup_update_rows.
  destruct (db w !! k) as [r0|]; simpl; [|done].
  destruct (models.where_holds (qs_where qs) k r0) eqn:Hm;
    intros [= <-]; [|done].
  by apply where_holds_deleted.
Qed.

Lemma update_rows_unmatched wh v d :
  (∀ k r, d !! k = Some r → models.where_holds wh k r = false) →
  models.update_rows wh v d = d.
Proof.
  intros Hno. apply map_eq. intros k. rewrite lookup_update_rows.
  destruct (d !! k) as [r|] eqn:Hk; simpl; [|done].
  by rewrite (Hno k r Hk).
Qed.

Lemma matched_pks_unmatched qs w :
  (∀ k r, db w !! k = Some r →
          models.where_holds (qs_where qs) k r = false) →
  matched_pks qs w = [].
Proof.
  intros Hno. unfold matched_pks.
  assert (models.rows qs (db w) = ∅) as ->.
  { apply map_empty. intros k.
    destruct (models.rows qs (db w) !! k) as [r|] eqn:Hk; [|done].
    apply lookup_rows_Some in Hk as [Hk Hm].
    rewrite (Hno k r Hk) in Hm. done. }
  by rewrite map_to_list_empty.
Qed.

(** X2.  A second [soft_delete()] on the same query set of a soft-delete
    manager finds the rows of the first one already excluded by the null
    test: it captures the empty list over the keys of the first call and
    changes no row, so a [restore] after it restores nothing. *)
Theorem second_soft_delete_forgets_keys
    (m use_manager : Manager) (qs : QuerySet) (w : World) :
  m ≠ mgr_Manager → produced_by m qs →
  fault_at w 0 = None → fault_at w 1 = None →
  fault_at w 2 = None → fault_at w 3 = None →
  ∃ qs1 w1 w2,
    SoftDeleteQuerySet.soft_delete (qs, w) = (Return tt, (qs1, w1)) ∧
    SoftDeleteQuerySet.soft_delete (qs1, w1)
      = (Return tt, (set_deleted_item_pks [] qs, w2)) ∧
    db w2 = db w1 ∧
    SoftDeleteQuerySet.restore use_manager (set_deleted_item_pks [] qs, w2)
      = (Return tt, (set_deleted_item_pks [] qs, w2)).
Proof.
  intros Hm Hp H0 H1 H2 H3.
  pose proof (produced_by_carries_isnull m qs Hm Hp) as Hin.
  set (qs1 := set_deleted_item_pks (matched_pks qs w) qs).
  set (w1 := soft_deleted_world qs w).
  assert (Hno : ∀ k r, db w1 !! k = Some r →
                       models.where_holds (qs_where qs1) k r = false).
  { intros k r Hk. by apply (soft_deleted_world_unmatched qs w k r). }
  exists qs1, w1, (soft_deleted_world qs1 w1).
  split; [by apply soft_delete_run|].
  split.
  { rewrite soft_delete_run.
    - by rewrite (matched_pks_unmatched qs1 w1 Hno).
    - unfold w1, soft_deleted_world.
      change (fault_at (logged
                (UPDATE_deleted_at (qs_where qs) (Some (clock w)))
                (logged (SELECT_pk (qs_where qs)) w)) 0 = None).
      by rewrite !fault_at_logged.
    - unfold w1, soft_deleted_world.
      change (fault_at (logged
                (UPDATE_deleted_at (qs_where qs) (Some (clock w)))
                (logged (SELECT_pk (qs_where qs)) w)) 1 = None).
      by rewrite !fault_at_logged. }
  split; [by apply update_rows_unmatched|].
  apply restore_noop. by right.
Qed.

Lemma second_soft_delete_forgets_keys_witness :
  ∃ qs1 w1 w2,
    SoftDeleteQuerySet.soft_delete
      (manager_all SoftDeleteModel.objects, world_abc)
      = (Return tt, (qs1, w1)) ∧
    SoftDeleteQuerySet.soft_delete (qs1, w1)
      = (Return tt,
         (set_deleted_item_pks [] (manager_all SoftDeleteModel.objects),
          w2)) ∧
    db w2 = db w1 ∧
    SoftDeleteQuerySet.restore SoftDeleteModel.all_objects
      (set_deleted_item_pks [] (manager_all SoftDeleteModel.objects), w2)
      = (Return tt,
         (set_deleted_item_pks [] (manager_all SoftDeleteModel.objects),
          w2)).
Proof.
  apply (second_soft_delete_forgets_keys SoftDeleteModel.objects
           SoftDeleteModel.all_objects
           (manager_all SoftDeleteModel.objects) world_abc);
    [discriminate | apply pb_get_queryset | reflexivity..].
Defined.

(** ** A failing [restore] *)

(** X3.  [restore] has no handler of its own: when its update raises, the
    exception reaches the caller, no row has changed and the captured keys
    are still on the query set, so that a later [restore] on the same
    object, if its update goes through, clears [deleted_at] as the first
    one would have and only then empties the list. *)
Theorem restore_failure_keeps_keys
    (qs : QuerySet) (w : World) (use_manager : Manager)
    (pks : list Z) (e : PyExc) :
  deleted_item_pks qs = Some pks → pks ≠ [] →
  fault_at w 0 = Some e →
  ∃ w1,
    SoftDeleteQuerySet.restore use_manager (qs, w) = (Raise e, (qs, w1)) ∧
    db w1 = db w ∧
    (fault_at w 1 = None →
     ∃ w2,
       SoftDeleteQuerySet.restore use_manager (qs, w1)
         = (Return tt, (set_deleted_item_pks [] qs, w2)) ∧
       db w2 = models.update_rows
                 (qs_where (manager_get_queryset use_manager)
                    ++ [pk__in pks]) None (db w)).
Proof.
  intros Hc Hne H0.
  exists (logged (UPDATE_deleted_at
                    (qs_where (manager_get_queryset use_manager)
                       ++ [pk__in pks]) None) w).
  split.
  { destruct pks as [|p pks]; [done|].
    unfold SoftDeleteQuerySet.restore, models.QuerySet_update.
    unfold_monad. simpl. rewrite Hc.
    unfold manager_filter, models.QuerySet_filter. simpl.
    by rewrite (execute_raises _ _ _ H0). }
  split; [done|].
  intros H1. eexists. split.
  - apply restore_run; [done|done|]. by rewrite fault_at_logged.
  - done.
Qed.

Lemma restore_failure_keeps_keys_witness :
  ∃ w1,
    SoftDeleteQuerySet.restore SoftDeleteModel.all_objects
      (qs_after_soft_delete, world_restore_fails)
      = (Raise (DatabaseError "deadlock detected"),
         (qs_after_soft_delete, w1)) ∧
    db w1 = db world_restore_fails ∧
    (fault_at world_restore_fails 1 = None →
     ∃ w2,
       SoftDeleteQuerySet.restore SoftDeleteModel.all_objects
         (qs_after_soft_delete, w1)
         = (Return tt, (set_deleted_item_pks [] qs_after_soft_delete, w2)) ∧
       db w2 = models.update_rows
                 (qs_where (manager_get_queryset SoftDeleteModel.all_objects)
                    ++ [pk__in [3; 2; 1]]) None (db world_restore_fails)).
Proof.
  apply (restore_failure_keeps_keys qs_after_soft_delete
           world_restore_fails SoftDeleteModel.all_objects [3; 2; 1]
           (DatabaseError "deadlock detected")).
  - reflexivity.
  - discriminate.
  - reflexivity.
Defined.

(** ** A failing save *)

(** X4.  Instance [soft_delete()] and [restore()] assign [deleted_at]
    before they save and catch nothing: when the first statement of the
    save raises, the exception reaches the caller, the table is unchanged,
    and the in-memory instance already carries the new [deleted_at], so it
    no longer agrees with its row. *)
Theorem instance_save_failure_diverges
    (obj : Instance) (w : World) (e : PyExc) :
  fault_at w 0 = Some e →
  ∃ w1 w2,
    SoftDeleteModel.soft_delete (obj, w)
      = (Raise e, (set_deleted_at (Some (clock w)) obj, w1)) ∧
    db w1 = db w ∧
    SoftDeleteModel.restore (obj, w)
      = (Raise e, (set_deleted_at None obj, w2)) ∧
    db w2 = db w.
Proof.
  intros H0.
  rewrite model_soft_delete_unfold, model_restore_unfold.
  unfold models.Model_save. unfold_monad. simpl.
  destruct (pk obj) as [k|]; rewrite !(execute_raises _ _ _ H0); simpl;
    eexists _, _; done.
Qed.

Lemma instance_save_failure_diverges_witness :
  ∃ w1 w2,
    SoftDeleteModel.soft_delete (inst_a, world_first_fails)
      = (Raise (DatabaseError "deadlock detected"),
         (set_deleted_at (Some (clock world_first_fails)) inst_a, w1)) ∧
    db w1 = db world_first_fails ∧
    SoftDeleteModel.restore (inst_a, world_first_fails)
      = (Raise (DatabaseError "deadlock detected"),
         (set_deleted_at None inst_a, w2)) ∧
    db w2 = db world_first_fails.
Proof.
  apply (instance_save_failure_diverges inst_a world_first_fails
           (DatabaseError "deadlock detected")).
  reflexivity.
Defined.

(** ** Deleting an instance that was never saved *)

Lemma fresh_pk_bound (d : gmap Z Row) k :
  is_Some (d !! k) → k ≤ map_fold (λ k _ acc, Z.max k acc) 0 d.
Proof.
  revert k.
  apply (map_fold_weak_ind
           (λ b (m : gmap Z Row), ∀ k, is_Some (m !! k) → k ≤ b)).
  - intros k [r Hr]. by rewrite lookup_empty in Hr.
  - intros i x m r Hi IH k Hk.
    destruct (decide (i = k)) as [->|Hne]; [lia|].
    rewrite lookup_insert_ne in Hk by done.
    specialize (IH k Hk). lia.
Qed.

Lemma fresh_pk_fresh (d : gmap Z Row) : d !! models.fresh_pk d = None.
Proof.
  destruct (d !! models.fresh_pk d) as [r|] eqn:Hk; [|done].
  pose proof (fresh_pk_bound d (models.fresh_pk d) (mk_is_Some _ _ Hk)).
  unfold models.fresh_pk in *. lia.
Qed.

(** X5.  A non-permanent [delete] on an instance that has no primary key
    does not fail: the save inside [soft_delete()] inserts the instance, so
    the table gains one row under a key it did not hold, already marked
    with the time of the clock and hidden from [objects]; the rows that
    were there are untouched. *)
Theorem delete_unsaved_instance_inserts_deleted_row
    (obj : Instance) (w : World) (v : PyVal) :
  pk obj = None → py_eq v (PyBool true) = false →
  fault_at w 0 = None →
  ∃ k w',
    SoftDeleteModel.delete v (obj, w)
      = (Return None,
         (set_pk (Some k) (set_deleted_at (Some (clock w)) obj), w')) ∧
    db w !! k = None ∧
    db w' = <[k := mkRow (Some (clock w)) (fields obj)]> (db w) ∧
    size (db w') = S (size (db w)) ∧
    hidden_from SoftDeleteModel.objects (db w') k.
Proof.
  intros Hpk Hv H0.
  exists (models.fresh_pk (db w)).
  eexists. split.
  { unfold SoftDeleteModel.delete. rewrite Hv. unfold mbind, M_bind.
    rewrite model_soft_delete_unfold.
    unfold models.Model_save. unfold_monad. simpl. rewrite Hpk.
    rewrite (execute_ok _ _ H0). reflexivity. }
  simpl. split; [apply fresh_pk_fresh|]. split; [done|].
  split; [apply map_size_insert_None, fresh_pk_fresh|].
  eapply deleted_row_hidden; [done|apply lookup_insert_eq|done].
Qed.

Lemma delete_unsaved_instance_inserts_deleted_row_witness :
  ∃ k w',
    SoftDeleteModel.delete (PyBool false) (inst_unsaved, world_abc)
      = (Return None,
         (set_pk (Some k)
            (set_deleted_at (Some (clock world_abc)) inst_unsaved), w')) ∧
    db world_abc !! k = None ∧
    db w' = <[k := mkRow (Some (clock world_abc)) (fields inst_unsaved)]>
              (db world_abc) ∧
    size (db w') = S (size (db world_abc)) ∧
    hidden_from SoftDeleteModel.objects (db w') k.
Proof.
  apply (delete_unsaved_instance_inserts_deleted_row
           inst_unsaved world_abc (PyBool false));
    reflexivity.
Defined.

(** ** The managers side by side *)

Lemma qs_where_foldl steps qs :
  qs_where (foldl apply_step qs steps)
  = qs_where qs ++ qs_where (foldl apply_step
                               (models.QuerySet_new (qs_class qs)) steps).
Proof.
  revert qs. induction steps as [|st steps IH] using rev_ind; intros qs.
  - simpl. by rewrite app_nil_r.
  - rewrite !foldl_app. simpl.
    destruct st; simpl; rewrite IH; by rewrite ?app_assoc.
Qed.

Lemma qs_where_class_irrelevant steps c1 c2 :
  qs_where (foldl apply_step (models.QuerySet_new c1) steps)
  = qs_where (foldl apply_step (models.QuerySet_new c2) steps).
Proof.
  induction steps as [|st steps IH] using rev_ind; [done|].
  rewrite !foldl_app. simpl. destruct st; simpl; by rewrite IH.
Qed.

(** X6.  The soft-delete managers differ from the plain one by the null
    test alone: for one and the same chain of [filter], [exclude] and [all]
    calls, [objects] (or the user-model manager) returns exactly the rows
    that [all_objects] returns and whose [deleted_at] is null. *)
Theorem objects_is_all_objects_without_deleted
    (m : Manager) (steps : list Step) (d : gmap Z Row) (k : Z) (r : Row) :
  m ≠ mgr_Manager →
  (models.rows (manager_chain m steps) d !! k = Some r ↔
   models.rows (manager_chain SoftDeleteModel.all_objects steps) d !! k
     = Some r ∧
   row_deleted_at r = None).
Proof.
  intros Hm. rewrite !lookup_rows_Some. unfold manager_chain.
  rewrite (qs_where_foldl steps (manager_get_queryset m)).
  rewrite (qs_where_foldl steps
             (manager_get_queryset SoftDeleteModel.all_objects)).
  rewrite !where_holds_app.
  rewrite (qs_where_class_irrelevant steps
             (qs_class (manager_get_queryset m))
             (qs_class (manager_get_queryset SoftDeleteModel.all_objects))).
  assert (models.where_holds (qs_where (manager_get_queryset m)) k r = true
          ↔ row_deleted_at r = None) as Hnull
    by (destruct m; [done|apply where_holds_isnull..]).
  rewrite andb_true_iff, Hnull. simpl. tauto.
Qed.

Lemma objects_is_all_objects_without_deleted_witness :
  models.rows
    (manager_chain SoftDeleteModel.objects
       [step_filter (field__exact "name" (PyStr "A")); step_all])
    (db world_abc) !! 1 = Some row_a ↔
  models.rows
    (manager_chain SoftDeleteModel.all_objects
       [step_filter (field__exact "name" (PyStr "A")); step_all])
    (db world_abc) !! 1 = Some row_a ∧
  row_deleted_at row_a = None.
Proof.
  apply (objects_is_all_objects_without_deleted SoftDeleteModel.objects).
  discriminate.
Defined.

(** ** What the query-set operations leave alone *)

Lemma update_rows_keeps_fields wh v d k :
  row_fields <$> models.update_rows wh v d !! k = row_fields <$> d !! k.
Proof.
  rewrite lookup_update_rows. destruct (d !! k) as [r|]; simpl; [|done].
  by destruct (models.where_holds wh k r).
Qed.

(** X7.  Whatever the arguments and whatever the database does (success, a
    failing capture, a failing update, any exception class), query-set
    [soft_delete()] and [restore()] neither add nor remove a row and write
    no column but [deleted_at]: every key holds the same fields after the
    call as before it. *)
Theorem query_set_operations_keep_rows_and_fields
    (qs : QuerySet) (w : World) (use_manager : Manager) (k : Z) :
  row_fields <$> db (SoftDeleteQuerySet.soft_delete (qs, w)).2.2 !! k
    = row_fields <$> db w !! k ∧
  row_fields <$> db (SoftDeleteQuerySet.restore use_manager (qs, w)).2.2 !! k
    = row_fields <$> db w !! k.
Proof.
  split.
  - unfold SoftDeleteQuerySet.soft_delete, models.QuerySet_values_list_pk,
      models.QuerySet_update, execute.
    unfold_monad. simpl.
    destruct (fault_at w 0) as [e0|]; simpl.
    { by destruct (isinstance_Exception e0). }
    destruct (fault_at _ 0) as [e1|]; simpl.
    { by destruct (isinstance_Exception e1). }
    apply update_rows_keeps_fields.
  - unfold SoftDeleteQuerySet.restore, models.QuerySet_update, execute.
    unfold_monad. simpl.
    destruct (deleted_item_pks qs) as [[|p pks]|]; simpl; [done| |done].
    destruct (fault_at w 0); simpl; [done|].
    apply update_rows_keeps_fields.
Qed.

(** ** The flag, value by value *)

(** X8.  Among [None], booleans, integers and strings, the values that send
    [delete] down the permanent path are exactly [True] and the integer 1,
    on the query set and on the instance alike; every other value,
    truthy or not, soft-deletes and returns [None]. *)
Theorem delete_flag_dispatch (v : PyVal) :
  (v = PyBool true ∨ v = PyInt 1 →
   SoftDeleteQuerySet.delete v = SoftDeleteQuerySet.delete (PyBool true) ∧
   SoftDeleteModel.delete v = SoftDeleteModel.delete (PyBool true)) ∧
  (v ≠ PyBool true → v ≠ PyInt 1 →
   SoftDeleteQuerySet.delete v
     = (SoftDeleteQuerySet.soft_delete;; mret None) ∧
   SoftDeleteModel.delete v
     = (SoftDeleteModel.soft_delete;; mret None)).
Proof.
  split.
  - intros Hv. apply py_eq_True in Hv.
    unfold SoftDeleteQuerySet.delete, SoftDeleteModel.delete.
    by rewrite Hv.
  - intros H1 H2. apply delete_soft_path.
    destruct (py_eq v (PyBool true)) eqn:Hv; [|done].
    apply py_eq_True in Hv as [?|?]; done.
Qed.

Lemma delete_flag_dispatch_witness :
  SoftDeleteQuerySet.delete (PyInt 2)
    = (SoftDeleteQuerySet.soft_delete;; mret None) ∧
  SoftDeleteModel.delete (PyInt 2)
    = (SoftDeleteModel.soft_delete;; mret None).
Proof.
  apply (proj2 (delete_flag_dispatch (PyInt 2))); discriminate.
Defined.

(** ** Restoring an instance *)

(** X10.  After an instance [restore()] that meets no database failure,
    the record of the instance is stored with a null [deleted_at] and is
    returned by [objects], by the user-model manager and by
    [all_objects]. *)
Theorem instance_restore_makes_record_visible
    (obj : Instance) (w : World) :
  fault_at w 0 = None → fault_at w 1 = None →
  ∃ k w',
    SoftDeleteModel.restore (obj, w)
      = (Return tt, (set_pk (Some k) (set_deleted_at None obj), w')) ∧
    (∀ k0, pk obj = Some k0 → k = k0) ∧
    db w' !! k = Some (mkRow None (fields obj)) ∧
    returned_by SoftDeleteModel.objects (db w') k
      (mkRow None (fields obj)) ∧
    returned_by mgr_UserSoftDeleteManager (db w') k
      (mkRow None (fields obj)) ∧
    returned_by SoftDeleteModel.all_objects (db w') k
      (mkRow None (fields obj)).
Proof.
  intros H0 H1.
  destruct (save_run (set_deleted_at None obj) w H0 H1)
    as (k & w' & Hrun & Hkey & Hdb).
  exists k, w'.
  assert (Hrow : db w' !! k = Some (mkRow None (fields obj)))
    by (rewrite Hdb; apply lookup_insert_eq).
  split; [by rewrite model_restore_unfold|].
  split; [exact Hkey|]. split; [exact Hrow|].
  unfold returned_by. rewrite !lookup_rows_Some. done.
Qed.

Lemma instance_restore_makes_record_visible_witness :
  ∃ k w',
    SoftDeleteModel.restore (inst_a, world_after_soft_delete)
      = (Return tt, (set_pk (Some k) (set_deleted_at None inst_a), w')) ∧
    (∀ k0, pk inst_a = Some k0 → k = k0) ∧
    db w' !! k = Some (mkRow None (fields inst_a)) ∧
    returned_by SoftDeleteModel.objects (db w') k
      (mkRow None (fields inst_a)) ∧
    returned_by mgr_UserSoftDeleteManager (db w') k
      (mkRow None (fields inst_a)) ∧
    returned_by SoftDeleteModel.all_objects (db w') k
      (mkRow None (fields inst_a)).
Proof.
  apply (instance_restore_makes_record_visible inst_a
           world_after_soft_delete);
    reflexivity.
Defined.

(** ** Round trip on any query set of a soft-delete manager *)

Lemma restore_undoes_soft_delete_of qs w t :
  deleted_at__isnull true ∈ qs_where qs →
  models.update_rows
    (qs_where (manager_get_queryset mgr_Manager)
       ++ [pk__in (matched_pks qs w)])
    None
    (models.update_rows (qs_where qs) (Some t) (db w))
  = db w.
Proof.
  intros Hin. apply map_eq. intros k. rewrite !lookup_update_rows.
  destruct (db w !! k) as [r|] eqn:Hk; simpl; [|done]. f_equal.
  rewrite andb_true_r.
  destruct (models.where_holds (qs_where qs) k r) eqn:Hm.
  - rewrite bool_decide_eq_true_2 by (apply elem_of_pks; eauto).
    pose proof (where_holds_In _ _ _ _ Hin Hm) as Hq. simpl in Hq.
    rewrite !bool_decide_eq_true in Hq.
    destruct r as [da fs]. simpl in Hq. by subst da.
  - rewrite bool_decide_eq_false_2; [done|].
    intros Hk'. apply elem_of_pks in Hk' as (r' & Hr' & Hm').
    rewrite Hk in Hr'. injection Hr' as <-. congruence.
Qed.

(** X11.  The round trip does not need [objects.all()]: for every query
    set a soft-delete manager produces, however filtered, [delete()] marks
    exactly the rows the query set matches (each matched row gets the time
    of the clock, every other row is as before), and [restore(all_objects)]
    on the same object then brings the whole table back to what it was when
    the database does not fail, and leaves the object with an empty key
    list. *)
Theorem produced_query_set_round_trip
    (m : Manager) (qs : QuerySet) (w : World) :
  m ≠ mgr_Manager → produced_by m qs →
  fault_at w 0 = None → fault_at w 1 = None → fault_at w 2 = None →
  ∃ qs1 w1 w2,
    call_delete None (qs, w) = (Return None, (qs1, w1)) ∧
    (∀ k, db w1 !! k =
          (λ r, if models.where_holds (qs_where qs) k r
                then row_set_deleted_at (Some (clock w)) r else r)
            <$> db w !! k) ∧
    call_restore SoftDeleteModel.all_objects (qs1, w1)
      = (Return tt, (set_deleted_item_pks [] qs, w2)) ∧
    db w2 = db w.
Proof.
  intros Hm Hp H0 H1 H2.
  pose proof (produced_by_carries_isnull m qs Hm Hp) as Hin.
  pose proof (produced_by_soft_delete_class m qs Hm Hp) as Hc.
  assert (Hrestore : ∃ w2,
    SoftDeleteQuerySet.restore mgr_Manager
      (set_deleted_item_pks (matched_pks qs w) qs, soft_deleted_world qs w)
    = (Return tt, (set_deleted_item_pks [] qs, w2)) ∧ db w2 = db w).
  { destruct (matched_pks qs w) as [|p pks] eqn:Hpks.
    - eexists. split; [apply restore_noop; by right|].
      pose proof (restore_undoes_soft_delete_of qs w (clock w) Hin) as Hu.
      rewrite Hpks, update_rows_no_keys in Hu. exact Hu.
    - eexists. split.
      + rewrite (restore_run _ _ mgr_Manager (p :: pks));
          [reflexivity|done|done|].
        unfold soft_deleted_world.
        change (fault_at (logged
                  (UPDATE_deleted_at (qs_where qs) (Some (clock w)))
                  (logged (SELECT_pk (qs_where qs)) w)) 0
                = None).
        by rewrite !fault_at_logged.
      + simpl. rewrite <- Hpks. by apply restore_undoes_soft_delete_of. }
  destruct Hrestore as (w2 & Hr & Hdb).
  exists (set_deleted_item_pks (matched_pks qs w) qs),
    (soft_deleted_world qs w), w2.
  split.
  { unfold call_delete, SoftDeleteQuerySet.delete. unfold_monad. simpl.
    rewrite Hc. simpl. by rewrite (soft_delete_run qs w H0 H1). }
  split; [intros k; simpl; apply lookup_update_rows|].
  split; [|exact Hdb].
  unfold call_restore. unfold_monad. simpl. rewrite Hc. exact Hr.
Qed.

Lemma produced_query_set_round_trip_witness :
  ∃ qs1 w1 w2,
    call_delete None (qs_named_a, world_abc) = (Return None, (qs1, w1)) ∧
    (∀ k, db w1 !! k =
          (λ r, if models.where_holds (qs_where qs_named_a) k r
                then row_set_deleted_at (Some (clock world_abc)) r else r)
            <$> db world_abc !! k) ∧
    call_restore SoftDeleteModel.all_objects (qs1, w1)
      = (Return tt, (set_deleted_item_pks [] qs_named_a, w2)) ∧
    db w2 = db world_abc.
Proof.
  apply (produced_query_set_round_trip SoftDeleteModel.objects
           qs_named_a world_abc);
    [discriminate
    | apply pb_filter, pb_get_queryset
    | reflexivity..].
Defined.
